(** * gointelx: the analyzer service (gointelx/analyzer.go)

    A shallow embedding of [AnalyzerService.GetConfigs] and
    [AnalyzerService.HealthCheck] and the properties of their results.

    Go values are modelled as follows.
    - [string] and [[]byte] are Rocq strings (sequences of bytes).
    - A pointer result is an [option]: [None] is Go's [nil].
    - A Go result pair [(value, error)] is a Rocq pair whose second
      component is [None] for a [nil] error.
    - [map[string]AnalyzerConfig] is a [gmap string AnalyzerConfig].
    - The functions of the Go library the code calls ([json.Unmarshal],
      [range] over a map, [fmt.Sprintf] outside the directives modelled
      here) are fields of the class [GoRuntime]; the two methods of the
      transport client are fields of the class [Transport]. *)

From Stdlib Require Import String Ascii ZArith Sorted.
From stdpp Require Import base option list sorting gmap strings.

Local Open Scope string_scope.
Local Open Scope list_scope.

(** ** Strings as Go compares them *)

(** Go's [a < b] on strings: lexicographic on the bytes, a proper prefix
    being smaller. *)
Definition less (a b : string) : bool := String.ltb a b.

(** [!(b < a)], the order [sort.Strings] leaves its slice in. *)
Definition notGreater (a b : string) : Prop := less b a = false.

(** ** sort.Strings *)

(** One step of insertion: [x] goes in front of the first element that is
    greater than it. *)
Fixpoint insertSorted (x : string) (l : list string) : list string :=
  match l with
  | [] => [x]
  | y :: l' => if less x y then x :: y :: l' else y :: insertSorted x l'
  end.

(** [sort.Strings]: sorts a slice of strings in increasing order.  The
    library is free in its choice of algorithm; insertion sort is what it
    runs on short slices.  The order on strings being total, the result
    does not depend on that choice (lemma [sort_Strings_unique]). *)
Definition sort_Strings (l : list string) : list string :=
  foldr insertSorted [] l.

(** ** fmt.Sprintf with string operands *)

(** What [Sprintf] writes for operands left over once the format is used up. *)
Fixpoint extraOperands (a : list string) : string :=
  match a with
  | [] => ""
  | [x] => "string=" +:+ x
  | x :: a' => "string=" +:+ x +:+ ", " +:+ extraOperands a'
  end.

Definition extraString (a : list string) : string :=
  match a with
  | [] => ""
  | _ => "%!(EXTRA " +:+ extraOperands a +:+ ")"
  end.

(** [fmt.Sprintf] on string operands, for formats whose directives are
    [%s], [%v] and [%%], written without flag, width, precision or
    argument index.  [None] when the format holds any other directive.
    - a byte that is not [%] is copied;
    - [%%] writes [%];
    - [%s] and [%v] write the next operand as it is, without escaping, or
      [%!s(MISSING)] when no operand is left;
    - a [%] that ends the format writes [%!(NOVERB)];
    - operands left over are reported at the end. *)
Fixpoint doPrintf (format : string) (a : list string) : option string :=
  match format with
  | EmptyString => Some (extraString a)
  | String c rest =>
    if Ascii.eqb c "%" then
      match rest with
      | EmptyString => Some ("%!(NOVERB)" +:+ extraString a)
      | String verb rest' =>
        if Ascii.eqb verb "%" then String "%" <$> doPrintf rest' a
        else if Ascii.eqb verb "s" || Ascii.eqb verb "v" then
          match a with
          | x :: a' => String.append x <$> doPrintf rest' a'
          | [] =>
            String.append ("%!" +:+ String verb "(MISSING)") <$> doPrintf rest' []
          end
        else None
      end
    else String c <$> doPrintf rest a
  end.

(** ** Data model *)

(** [context.Context], as far as a call can tell: whether it is already
    cancelled when the call starts. *)
Record Context := { cancelled : bool }.

(** The errors of [json.Unmarshal]. *)
Inductive JsonError :=
| SyntaxError (msg : string)
| UnmarshalTypeError (value field : string).

(** Modelled from the spec: the errors a caller of the service can
    receive (section 7).  A value of Go's [error] is one of these; the
    error of [json.Unmarshal], returned as it is, is a [DecodeError]. *)
Inductive error :=
| ConstructionError (reason : string)
| NetworkError (reason : string)
| HTTPStatusError (statusCode : Z) (message : string)
| DecodeError (cause : JsonError)
| ContextCancelled.

(** Modelled from the spec: the request envelope handed to the HTTP
    client, with its method, target URL, headers and optional body. *)
Record Request := {
  Method : string;
  URL : string;
  Header : list (string * string);
  Body : option string
}.

(** Modelled from the spec: the envelope of a successful call, holding
    the raw payload ([successResp.Data] in analyzer.go). *)
Record successResponse := { Data : string }.

(** Modelled from the spec: the configuration of the client, its base URL
    ([client.options.Url] in analyzer.go) and authentication token. *)
Record IntelXClientOptions := { Url : string; Token : string }.

Record IntelXClient := { options : IntelXClientOptions }.

Record AnalyzerService := { client : IntelXClient }.

(** Modelled from the spec: [StatusResponse], declared outside
    analyzer.go, a record with the single boolean field of the
    health-check answer. *)
Record StatusResponse := { Status : bool }.

(** Modelled from the spec: the routes of the constants package.  The
    listing route is a fixed path; the health-check route is a template
    with one [%s] for the analyzer's name. *)
Definition ANALYZER_CONFIG_URL : string := "/api/get_analyzer_configs".

Definition ANALYZER_HEALTHCHECK_URL : string := "/api/analyzer/%s/healthcheck".

(** ** The transport client *)

(** The two methods of [IntelXClient] the service calls.  Their code is
    not part of analyzer.go; the service is verified for every pair of
    functions of this shape.  [World] is whatever state the HTTP layer
    keeps, [newRequest] being the only step that touches it.  Each method
    either yields its value or fails with an error, never both and never
    neither. *)
Class Transport := {
  World : Type;
  buildRequest :
    IntelXClient → Context → string → string → option string → string →
    error + Request;
  newRequest :
    IntelXClient → Context → Request → World → (error + successResponse) * World
}.

(** What the network does with one request. *)
Inductive NetOutcome :=
| Responded (statusCode : Z) (body : string)
| TransportFailed (reason : string)
| Aborted.

(** Modelled from the spec: [buildRequest], the construction primitive of
    the transport client.  It fails if the context is already cancelled or
    the URL is malformed, and otherwise yields the request with the given
    method, URL and body and the content type attached as a header. *)
Definition spec_buildRequest (validURL : string → bool)
    (c : IntelXClient) (ctx : Context)
    (method contentType : string) (body : option string) (url : string)
  : error + Request :=
  if cancelled ctx then inl ContextCancelled
  else if validURL url then
    inr {| Method := method; URL := url;
           Header := [("Content-Type", contentType)]; Body := body |}
  else inl (ConstructionError url).

Definition is2xx (statusCode : Z) : bool :=
  (200 <=? statusCode)%Z && (statusCode <? 300)%Z.

(** Modelled from the spec: [newRequest], the execute primitive of the
    transport client.  It issues the call; a non-2xx status becomes an
    [HTTPStatusError] with the status code and the message decoded from
    the body, a transport failure a [NetworkError], an aborted call a
    [ContextCancelled], and a 2xx status the raw payload.  The state of
    the HTTP layer is the list of requests issued so far. *)
Definition spec_newRequest (net : Context → Request → NetOutcome)
    (errorMessage : string → string)
    (c : IntelXClient) (ctx : Context) (request : Request) (w : list Request)
  : (error + successResponse) * list Request :=
  (match net ctx request with
   | Responded statusCode body =>
     if is2xx statusCode then inr {| Data := body |}
     else inl (HTTPStatusError statusCode (errorMessage body))
   | TransportFailed reason => inl (NetworkError reason)
   | Aborted => inl ContextCancelled
   end, w ++ [request]).

(** Modelled from the spec: the transport client of section 4.1, over a
    network [net], a URL validity check and a decoder of error bodies. *)
Definition specTransport (net : Context → Request → NetOutcome)
    (validURL : string → bool) (errorMessage : string → string) : Transport :=
  {| World := list Request;
     buildRequest := spec_buildRequest validURL;
     newRequest := spec_newRequest net errorMessage |}.

(** A transport client with its construction primitive replaced. *)
Definition withBuildRequest (T : Transport)
    (build : IntelXClient → Context → string → string → option string →
             string → error + Request) : Transport :=
  {| World := @World T; buildRequest := build; newRequest := @newRequest T |}.

(** The requests the service is expected to build: a [GET] without body
    whose content type is [application/json]. *)
Definition bodylessJsonGET (r : Request) : Prop :=
  Method r = "GET" ∧ Body r = None ∧
  Header r = [("Content-Type", "application/json")].

Section Gointelx.

(** The configuration fields shared by every kind of plugin
    ([BaseConfigurationType]) are declared outside analyzer.go; the
    development is parametric in them and in their zero value. *)
Variable BaseConfigurationType : Type.
Variable zeroBaseConfiguration : BaseConfigurationType.

Record AnalyzerConfig := {
  Base : BaseConfigurationType;
  Type_ : string;
  ExternalService : bool;
  LeaksInfo : bool;
  DockerBased : bool;
  RunHash : bool;
  RunHashType : string;
  SupportedFiletypes : list string;
  NotSupportedFiletypes : list string;
  ObservableSupported : list string
}.

(** The zero value of [AnalyzerConfig], what indexing a map yields for a
    key it does not hold. *)
Definition zeroAnalyzerConfig : AnalyzerConfig :=
  {| Base := zeroBaseConfiguration; Type_ := ""; ExternalService := false;
     LeaksInfo := false; DockerBased := false; RunHash := false;
     RunHashType := ""; SupportedFiletypes := []; NotSupportedFiletypes := [];
     ObservableSupported := [] |}.

(** [m[k]] *)
Definition mapIndex (m : gmap string AnalyzerConfig) (k : string) : AnalyzerConfig :=
  default zeroAnalyzerConfig (m !! k).

(** The keys of a map, in the order of stdpp's enumeration. *)
Definition keys (m : gmap string AnalyzerConfig) : list string :=
  (map_to_list m).*1.

(** ** The Go library

    - [json_Unmarshal_configs data m] and [json_Unmarshal_status data s]
      are [json.Unmarshal(data, &m)] and [json.Unmarshal(data, &s)]: the
      value the target holds afterwards and the error returned.
    - [mapRange m] is the order in which a [range] loop visits the keys
      of [m]: each key once, in an order the language leaves open.
    - [fmt_other] is [fmt.Sprintf] on the formats [doPrintf] leaves out. *)
Class GoRuntime := {
  json_Unmarshal_configs :
    string → gmap string AnalyzerConfig →
    gmap string AnalyzerConfig * option JsonError;
  json_Unmarshal_status :
    string → StatusResponse → StatusResponse * option JsonError;
  mapRange : gmap string AnalyzerConfig → list string;
  mapRange_keys : ∀ m, mapRange m ≡ₚ keys m;
  fmt_other : string → list string → string
}.

(** [fmt.Sprintf(format, a...)] for string operands. *)
Definition fmt_Sprintf {RT : GoRuntime} (format : string) (a : list string) : string :=
  match doPrintf format a with
  | Some s => s
  | None => fmt_other format a
  end.

(** ** The analyzer service *)

(** [GetConfigs] lists every analyzer configuration of the instance. *)
Definition GetConfigs {RT : GoRuntime} {T : Transport}
    (analyzerService : AnalyzerService) (ctx : Context) (w : World)
  : (option (list AnalyzerConfig) * option error) * World :=
  let requestUrl :=
    Url (options (client analyzerService)) +:+ ANALYZER_CONFIG_URL in
  let contentType := "application/json" in
  let method := "GET" in
  match buildRequest (client analyzerService) ctx method contentType None requestUrl with
  | inl err => ((None, Some err), w)
  | inr request =>
    match newRequest (client analyzerService) ctx request w with
    | (inl err, w') => ((None, Some err), w')
    | (inr successResp, w') =>
      let analyzerConfigurationResponse : gmap string AnalyzerConfig := ∅ in
      let '(analyzerConfigurationResponse, unmarshalError) :=
        json_Unmarshal_configs (Data successResp) analyzerConfigurationResponse in
      match unmarshalError with
      | Some e => ((None, Some (DecodeError e)), w')
      | None =>
        let analyzerNames : list string := [] in
        let analyzerNames :=
          foldl (λ names analyzerName, names ++ [analyzerName])
                analyzerNames (mapRange analyzerConfigurationResponse) in
        let analyzerNames := sort_Strings analyzerNames in
        let analyzerConfigurationList : list AnalyzerConfig := [] in
        let analyzerConfigurationList :=
          foldl (λ l analyzerName,
                   let analyzerConfig :=
                     mapIndex analyzerConfigurationResponse analyzerName in
                   l ++ [analyzerConfig])
                analyzerConfigurationList analyzerNames in
        ((Some analyzerConfigurationList, None), w')
      end
    end
  end.

(** [HealthCheck] checks if the specified analyzer is up and running. *)
Definition HealthCheck {RT : GoRuntime} {T : Transport}
    (analyzerService : AnalyzerService) (ctx : Context)
    (analyzerName : string) (w : World)
  : (bool * option error) * World :=
  let route :=
    Url (options (client analyzerService)) +:+ ANALYZER_HEALTHCHECK_URL in
  let requestUrl := fmt_Sprintf route [analyzerName] in
  let contentType := "application/json" in
  let method := "GET" in
  match buildRequest (client analyzerService) ctx method contentType None requestUrl with
  | inl err => ((false, Some err), w)
  | inr request =>
    let status := {| Status := false |} in
    match newRequest (client analyzerService) ctx request w with
    | (inl err, w') => ((false, Some err), w')
    | (inr successResp, w') =>
      let '(status, unmarshalError) :=
        json_Unmarshal_status (Data successResp) status in
      match unmarshalError with
      | Some e => ((false, Some (DecodeError e)), w')
      | None => ((Status status, None), w')
      end
    end
  end.

(** ** Properties of results *)

(** A slice of names in strictly increasing order. *)
Definition strictlyAscending (l : list string) : Prop :=
  StronglySorted (λ a b, less a b = true) l.

(** The URL [HealthCheck] is documented to call for an analyzer:
    [/api/analyzer/{NameOfAnalyzer}/healthcheck] under the base URL. *)
Definition healthCheckEndpoint (baseUrl analyzerName : string) : string :=
  baseUrl +:+ "/api/analyzer/" +:+ analyzerName +:+ "/healthcheck".

(** No byte of the string is [%]. *)
Fixpoint percentFree (s : string) : bool :=
  match s with
  | EmptyString => true
  | String c s' => negb (Ascii.eqb c "%") && percentFree s'
  end.

(** ** Canned collaborators for the examples

    A stand-in for the JSON decoder that knows the bodies of the examples
    and rejects every other body, two runtimes that differ in the order
    in which [range] visits a map, and a network that gives one answer to
    every request. *)
Definition quoted (s : string) : string :=
  String (ascii_of_nat 34) s +:+ String (ascii_of_nat 34) "".

Definition statusBody (b : bool) : string :=
  "{" +:+ quoted "status" +:+ ": " +:+ (if b then "true" else "false") +:+ "}".

Definition exampleConfig (type : string) : AnalyzerConfig :=
  {| Base := zeroBaseConfiguration; Type_ := type; ExternalService := true;
     LeaksInfo := false; DockerBased := false; RunHash := false;
     RunHashType := ""; SupportedFiletypes := []; NotSupportedFiletypes := [];
     ObservableSupported := ["ip"; "domain"] |}.

Definition exampleCatalog : gmap string AnalyzerConfig :=
  list_to_map [("Shodan", exampleConfig "observable");
               ("Classic_DNS", exampleConfig "dns");
               ("VirusTotal", exampleConfig "file");
               ("Yara", exampleConfig "rules")].

Definition catalogEntry (name type : string) : string :=
  quoted name +:+ ":{" +:+ quoted "type" +:+ ":" +:+ quoted type +:+ "}".

Definition catalogBody : string :=
  "{" +:+ catalogEntry "Shodan" "observable" +:+ ","
      +:+ catalogEntry "Classic_DNS" "dns" +:+ ","
      +:+ catalogEntry "VirusTotal" "file" +:+ ","
      +:+ catalogEntry "Yara" "rules" +:+ "}".

Definition canned_Unmarshal_configs (data : string)
    (m : gmap string AnalyzerConfig)
  : gmap string AnalyzerConfig * option JsonError :=
  if String.eqb data "{}" then (m, None)
  else if String.eqb data catalogBody then (exampleCatalog ∪ m, None)
  else (m, Some (SyntaxError "invalid character")).

Definition canned_Unmarshal_status (data : string) (s : StatusResponse)
  : StatusResponse * option JsonError :=
  if String.eqb data (statusBody true) then ({| Status := true |}, None)
  else if String.eqb data (statusBody false) then ({| Status := false |}, None)
  else (s, Some (SyntaxError "invalid character")).

Definition cannedRuntime : GoRuntime :=
  {| json_Unmarshal_configs := canned_Unmarshal_configs;
     json_Unmarshal_status := canned_Unmarshal_status;
     mapRange := keys;
     mapRange_keys := λ m, reflexivity (keys m);
     fmt_other := λ _ _, "" |}.

Definition cannedRuntimeReversed : GoRuntime :=
  {| json_Unmarshal_configs := canned_Unmarshal_configs;
     json_Unmarshal_status := canned_Unmarshal_status;
     mapRange := λ m, reverse (keys m);
     mapRange_keys := λ m, reverse_Permutation (keys m);
     fmt_other := λ _ _, "" |}.

(** A construction primitive that accepts nothing but a [GET] without
    body whose content type is [application/json]. *)
Definition strictBuildRequest (c : IntelXClient) (ctx : Context)
    (method contentType : string) (body : option string) (url : string)
  : error + Request :=
  match body with
  | None =>
    if String.eqb method "GET" && String.eqb contentType "application/json"
    then spec_buildRequest (λ _, true) c ctx method contentType body url
    else inl (ConstructionError "unexpected request")
  | Some _ => inl (ConstructionError "unexpected request")
  end.

Definition cannedNet (statusCode : Z) (body : string)
  : Context → Request → NetOutcome :=
  λ _ _, Responded statusCode body.

Definition cannedTransport (statusCode : Z) (body : string) : Transport :=
  specTransport (cannedNet statusCode body) (λ _, true) (λ body, body).

Definition exampleService (baseUrl : string) : AnalyzerService :=
  {| client := {| options := {| Url := baseUrl; Token := "t0k3n" |} |} |}.

Definition background : Context := {| cancelled := false |}.

(** ** Names by their first byte *)

(** The bytes [A] to [Z] and [a] to [z]. *)
Definition isUpper (c : ascii) : bool :=
  (65 <=? N_of_ascii c)%N && (N_of_ascii c <=? 90)%N.

Definition isLower (c : ascii) : bool :=
  (97 <=? N_of_ascii c)%N && (N_of_ascii c <=? 122)%N.

Definition startsUpper (s : string) : bool :=
  match s with
  | EmptyString => false
  | String c _ => isUpper c
  end.

Definition startsLower (s : string) : bool :=
  match s with
  | EmptyString => false
  | String c _ => isLower c
  end.

(** A catalog whose names differ in the case of their first letter, and a
    runtime whose decoder knows its body. *)
Definition mixedCatalog : gmap string AnalyzerConfig :=
  list_to_map [("abuseIPDB", exampleConfig "observable");
               ("Zeek", exampleConfig "file");
               ("crowdsec", exampleConfig "ip")].

Definition mixedBody : string :=
  "{" +:+ catalogEntry "abuseIPDB" "observable" +:+ ","
      +:+ catalogEntry "Zeek" "file" +:+ ","
      +:+ catalogEntry "crowdsec" "ip" +:+ "}".

Definition mixedRuntime : GoRuntime :=
  {| json_Unmarshal_configs := λ data m,
       if String.eqb data mixedBody then (mixedCatalog ∪ m, None)
       else (m, Some (SyntaxError "invalid character"));
     json_Unmarshal_status := canned_Unmarshal_status;
     mapRange := keys;
     mapRange_keys := λ m, reflexivity (keys m);
     fmt_other := λ _ _, "" |}.

(** ** Bodies that hold no data *)

(** The kinds of JSON value. *)
Inductive JsonKind := NullKind | BoolKind | ObjectKind | OtherKind.

(** JSON values, to the depth the two response schemas look at them: an
    object is known by the names and the kinds of its members. *)
Inductive JsonValue :=
| JNull
| JBool (b : bool)
| JObject (members : list (string * JsonKind))
| JOther.

(** Modelled from the spec: the schema of the health-check answer
    (section 6), a JSON object with a single boolean field. *)
Definition statusSchema (v : JsonValue) : bool :=
  match v with
  | JObject [(_, BoolKind)] => true
  | _ => false
  end.

(** Modelled from the spec: the schema of the listing (section 6), a JSON
    object whose values are objects. *)
Definition listingSchema (v : JsonValue) : bool :=
  match v with
  | JObject members =>
    forallb (λ member, match member.2 with ObjectKind => true | _ => false end)
            members
  | _ => false
  end.

(** The JSON value written by the bodies [null] and [{}]; [None] for every
    other body. *)
Definition valueOfBody (data : string) : option JsonValue :=
  if String.eqb data "null" then Some JNull
  else if String.eqb data "{}" then Some (JObject [])
  else None.

(** [json.Unmarshal(data, &status)] on the bodies [null] and [{}]: neither
    is an error and neither touches the record.  [None] for every other
    body. *)
Definition unmarshalEmpty_status (data : string) (s : StatusResponse)
  : option (StatusResponse * option JsonError) :=
  match valueOfBody data with
  | Some JNull => Some (s, None)
  | Some (JObject []) => Some (s, None)
  | _ => None
  end.

(** [json.Unmarshal(data, &m)] for a map [m] on the bodies [null] and
    [{}]: neither is an error; [null] sets the map to nil, which reads as
    the empty map, and [{}] adds no entry.  [None] for every other body. *)
Definition unmarshalEmpty_configs (data : string)
    (m : gmap string AnalyzerConfig)
  : option (gmap string AnalyzerConfig * option JsonError) :=
  match valueOfBody data with
  | Some JNull => Some (∅, None)
  | Some (JObject []) => Some (m, None)
  | _ => None
  end.

(** A runtime whose decoder treats [null] and [{}] as [json.Unmarshal]
    does. *)
Definition decodesEmptyAsGo (RT : GoRuntime) : Prop :=
  ∀ data,
    (∀ s r, unmarshalEmpty_status data s = Some r →
            json_Unmarshal_status data s = r) ∧
    (∀ m r, unmarshalEmpty_configs data m = Some r →
            json_Unmarshal_configs data m = r).

(** The canned runtime with [null] and [{}] decoded as [json.Unmarshal]
    decodes them. *)
Definition lenientRuntime : GoRuntime :=
  {| json_Unmarshal_configs := λ data m,
       default (canned_Unmarshal_configs data m)
               (unmarshalEmpty_configs data m);
     json_Unmarshal_status := λ data s,
       default (canned_Unmarshal_status data s)
               (unmarshalEmpty_status data s);
     mapRange := keys;
     mapRange_keys := λ m, reflexivity (keys m);
     fmt_other := λ _ _, "" |}.

(** A context that is cancelled before the call starts. *)
Definition cancelledContext : Context := {| cancelled := true |}.

(** ** The order on strings *)

Lemma ascii_compare_refl (c : ascii) : Ascii.compare c c = Eq.
Proof. unfold Ascii.compare. apply N.compare_refl. Qed.

Lemma ascii_compare_lt_trans (a b c : ascii) :
  Ascii.compare a b = Lt → Ascii.compare b c = Lt → Ascii.compare a c = Lt.
Proof.
  unfold Ascii.compare. rewrite !N.compare_lt_iff. apply N.lt_trans.
Qed.

Lemma string_compare_refl (s : string) : String.compare s s = Eq.
Proof.
  induction s as [|c s IH]; simpl; [reflexivity|].
  by rewrite ascii_compare_refl.
Qed.

Lemma string_compare_lt_trans (a b c : string) :
  String.compare a b = Lt → String.compare b c = Lt → String.compare a c = Lt.
Proof.
  revert b c. induction a as [|x a IH]; intros [|y b] [|z c]; simpl; try done.
  destruct (Ascii.compare x y) eqn:Hxy; try done;
    destruct (Ascii.compare y z) eqn:Hyz; try done; intros Hab Hbc.
  - apply Ascii.compare_eq_iff in Hxy, Hyz. subst.
    rewrite ascii_compare_refl. eauto.
  - apply Ascii.compare_eq_iff in Hxy. subst. by rewrite Hyz.
  - apply Ascii.compare_eq_iff in Hyz. subst. by rewrite Hxy.
  - by rewrite (ascii_compare_lt_trans x y z).
Qed.

Lemma less_compare (a b : string) : less a b = true ↔ String.compare a b = Lt.
Proof. unfold less, String.ltb. by destruct (String.compare a b). Qed.

Lemma less_irrefl (a : string) : less a a = false.
Proof. unfold less, String.ltb. by rewrite string_compare_refl. Qed.

Lemma less_trans (a b c : string) :
  less a b = true → less b c = true → less a c = true.
Proof. rewrite !less_compare. apply string_compare_lt_trans. Qed.

Lemma less_trichotomy (a b : string) :
  less a b = true ∨ a = b ∨ less b a = true.
Proof.
  rewrite !less_compare. destruct (String.compare a b) eqn:Hab.
  - right; left. by apply String.compare_eq_iff.
  - by left.
  - right; right. rewrite String.compare_antisym, Hab. done.
Qed.

Lemma less_asym (a b : string) : less a b = true → less b a = false.
Proof.
  intros Hab. destruct (less b a) eqn:Hba; [|done].
  pose proof (less_trans a b a Hab Hba) as Haa.
  by rewrite less_irrefl in Haa.
Qed.

#[local] Instance notGreater_trans : Transitive notGreater.
Proof.
  intros a b c Hab Hbc. unfold notGreater in *.
  destruct (less c a) eqn:Hca; [|done].
  destruct (less_trichotomy a b) as [Hlt|[->|Hlt]]; [|congruence..].
  rewrite (less_trans c a b Hca Hlt) in Hbc. done.
Qed.

#[local] Instance notGreater_antisym : AntiSymm (=) notGreater.
Proof.
  intros a b Hab Hba. unfold notGreater in *.
  destruct (less_trichotomy a b) as [?|[?|?]]; congruence.
Qed.

#[local] Instance notGreater_total : Total notGreater.
Proof.
  intros a b. unfold notGreater.
  destruct (less b a) eqn:Hba; [right; by apply less_asym | by left].
Qed.

(** ** sort.Strings sorts *)

Lemma insertSorted_Permutation (x : string) (l : list string) :
  insertSorted x l ≡ₚ x :: l.
Proof.
  induction l as [|y l IH]; simpl; [done|].
  destruct (less x y); [done|]. rewrite IH. apply Permutation_swap.
Qed.

Lemma sort_Strings_Permutation (l : list string) : sort_Strings l ≡ₚ l.
Proof.
  induction l as [|x l IH]; simpl; [done|].
  by rewrite insertSorted_Permutation, IH.
Qed.

Lemma insertSorted_HdRel (a x : string) (l : list string) :
  notGreater a x → HdRel notGreater a l → HdRel notGreater a (insertSorted x l).
Proof.
  intros Hax Hl. destruct l as [|y l]; simpl; [by constructor|].
  destruct (less x y); constructor; [done|]. by inv Hl.
Qed.

Lemma insertSorted_Sorted (x : string) (l : list string) :
  Sorted notGreater l → Sorted notGreater (insertSorted x l).
Proof.
  induction 1 as [|y l Hl IH Hy]; simpl; [by repeat constructor|].
  destruct (less x y) eqn:Hxy.
  - repeat constructor; [done..|]. by apply less_asym.
  - constructor; [done|]. by apply insertSorted_HdRel.
Qed.

Lemma sort_Strings_Sorted (l : list string) : Sorted notGreater (sort_Strings l).
Proof.
  induction l as [|x l IH]; simpl; [constructor|].
  by apply insertSorted_Sorted.
Qed.

(** Whatever algorithm sorts the slice, the result is that of
    [sort_Strings]. *)
Lemma sort_Strings_unique (l sorted : list string) :
  Sorted notGreater sorted → sorted ≡ₚ l → sorted = sort_Strings l.
Proof.
  intros Hs Hp. apply (Sorted_unique notGreater); [done|apply sort_Strings_Sorted|].
  by rewrite sort_Strings_Permutation.
Qed.

Lemma sort_Strings_proper (l1 l2 : list string) :
  l1 ≡ₚ l2 → sort_Strings l1 = sort_Strings l2.
Proof.
  intros Hp. apply sort_Strings_unique; [apply sort_Strings_Sorted|].
  by rewrite sort_Strings_Permutation.
Qed.

(** A slice without repetition is sorted strictly. *)
Lemma sort_Strings_strict (l : list string) :
  NoDup l → strictlyAscending (sort_Strings l).
Proof.
  intros Hnd. rewrite <-(sort_Strings_Permutation l) in Hnd.
  pose proof (Sorted_StronglySorted _ _ (sort_Strings_Sorted l)) as Hs.
  unfold strictlyAscending.
  induction Hs as [|x l' Hl' IH Hx]; [constructor|].
  apply NoDup_cons in Hnd as [Hx' Hnd]. constructor; [by apply IH|].
  rewrite Forall_forall in Hx |- *. intros y Hy.
  specialize (Hx y Hy). unfold notGreater in Hx.
  destruct (less_trichotomy x y) as [?|[->|?]]; [done| |congruence].
  done.
Qed.

(** ** fmt.Sprintf on formats without directive in their prefix *)

Lemma doPrintf_percentFree (prefix rest : string) (a : list string) :
  percentFree prefix = true →
  doPrintf (prefix +:+ rest) a = String.append prefix <$> doPrintf rest a.
Proof.
  induction prefix as [|c prefix IH]; intros Hfree.
  - change (EmptyString +:+ rest) with rest.
    destruct (doPrintf rest a); reflexivity.
  - simpl in Hfree. apply andb_prop in Hfree as [Hc Hfree].
    change (String c prefix +:+ rest) with (String c (prefix +:+ rest)).
    cbn [doPrintf]. destruct (Ascii.eqb c "%"); [done|].
    rewrite (IH Hfree). destruct (doPrintf rest a); reflexivity.
Qed.

(** ** The loops of GetConfigs *)

Lemma foldl_snoc_fmap {A B : Type} (f : A → B) (l : list A) (init : list B) :
  foldl (λ acc x, acc ++ [f x]) init l = init ++ (f <$> l).
Proof.
  revert init. induction l as [|x l IH]; intros init; simpl.
  - by rewrite app_nil_r.
  - by rewrite IH, <-app_assoc.
Qed.

Lemma keys_lookup (m : gmap string AnalyzerConfig) (k : string) :
  k ∈ keys m → m !! k = Some (mapIndex m k).
Proof.
  unfold keys, mapIndex. intros Hk.
  apply list_elem_of_fmap in Hk as [[k' v] [-> Hkv]].
  apply elem_of_map_to_list in Hkv. simpl. by rewrite Hkv.
Qed.

Lemma keys_length (m : gmap string AnalyzerConfig) : length (keys m) = size m.
Proof. unfold keys. by rewrite length_fmap, length_map_to_list. Qed.

Context {RT : GoRuntime} {T : Transport}.

(** The result of [GetConfigs] once the body is decoded: the values of
    the map under its sorted keys. *)
Lemma GetConfigs_decoded (svc : AnalyzerService) (ctx : Context) (w w' : World)
    (request : Request) (resp : successResponse)
    (m : gmap string AnalyzerConfig) :
  buildRequest (client svc) ctx "GET" "application/json" None
    (Url (options (client svc)) +:+ ANALYZER_CONFIG_URL) = inr request →
  newRequest (client svc) ctx request w = (inr resp, w') →
  json_Unmarshal_configs (Data resp) ∅ = (m, None) →
  GetConfigs svc ctx w =
    ((Some (mapIndex m <$> sort_Strings (mapRange m)), None), w').
Proof.
  intros Hb Hn Hd. unfold GetConfigs. rewrite Hb, Hn, Hd.
  rewrite (foldl_snoc_fmap id), list_fmap_id, foldl_snoc_fmap. done.
Qed.
(** The failure paths of [GetConfigs]. *)
Lemma GetConfigs_build_failed (svc : AnalyzerService) (ctx : Context)
    (w : World) (err : error) :
  buildRequest (client svc) ctx "GET" "application/json" None
    (Url (options (client svc)) +:+ ANALYZER_CONFIG_URL) = inl err →
  GetConfigs svc ctx w = ((None, Some err), w).
Proof. intros Hb. unfold GetConfigs. by rewrite Hb. Qed.

Lemma GetConfigs_transport_failed (svc : AnalyzerService) (ctx : Context)
    (w w' : World) (request : Request) (err : error) :
  buildRequest (client svc) ctx "GET" "application/json" None
    (Url (options (client svc)) +:+ ANALYZER_CONFIG_URL) = inr request →
  newRequest (client svc) ctx request w = (inl err, w') →
  GetConfigs svc ctx w = ((None, Some err), w').
Proof. intros Hb Hn. unfold GetConfigs. by rewrite Hb, Hn. Qed.

Lemma GetConfigs_decode_failed (svc : AnalyzerService) (ctx : Context)
    (w w' : World) (request : Request) (resp : successResponse)
    (m : gmap string AnalyzerConfig) (e : JsonError) :
  buildRequest (client svc) ctx "GET" "application/json" None
    (Url (options (client svc)) +:+ ANALYZER_CONFIG_URL) = inr request →
  newRequest (client svc) ctx request w = (inr resp, w') →
  json_Unmarshal_configs (Data resp) ∅ = (m, Some e) →
  GetConfigs svc ctx w = ((None, Some (DecodeError e)), w').
Proof. intros Hb Hn Hd. unfold GetConfigs. by rewrite Hb, Hn, Hd. Qed.

(** The paths of [HealthCheck]. *)
Lemma HealthCheck_build_failed (svc : AnalyzerService) (ctx : Context)
    (analyzerName : string) (w : World) (err : error) :
  buildRequest (client svc) ctx "GET" "application/json" None
    (fmt_Sprintf (Url (options (client svc)) +:+ ANALYZER_HEALTHCHECK_URL)
                 [analyzerName]) = inl err →
  HealthCheck svc ctx analyzerName w = ((false, Some err), w).
Proof. intros Hb. unfold HealthCheck. by rewrite Hb. Qed.

Lemma HealthCheck_transport_failed (svc : AnalyzerService) (ctx : Context)
    (analyzerName : string) (w w' : World) (request : Request) (err : error) :
  buildRequest (client svc) ctx "GET" "application/json" None
    (fmt_Sprintf (Url (options (client svc)) +:+ ANALYZER_HEALTHCHECK_URL)
                 [analyzerName]) = inr request →
  newRequest (client svc) ctx request w = (inl err, w') →
  HealthCheck svc ctx analyzerName w = ((false, Some err), w').
Proof. intros Hb Hn. unfold HealthCheck. by rewrite Hb, Hn. Qed.

Lemma HealthCheck_decode_failed (svc : AnalyzerService) (ctx : Context)
    (analyzerName : string) (w w' : World) (request : Request)
    (resp : successResponse) (status : StatusResponse) (e : JsonError) :
  buildRequest (client svc) ctx "GET" "application/json" None
    (fmt_Sprintf (Url (options (client svc)) +:+ ANALYZER_HEALTHCHECK_URL)
                 [analyzerName]) = inr request →
  newRequest (client svc) ctx request w = (inr resp, w') →
  json_Unmarshal_status (Data resp) {| Status := false |} = (status, Some e) →
  HealthCheck svc ctx analyzerName w = ((false, Some (DecodeError e)), w').
Proof. intros Hb Hn Hd. unfold HealthCheck. by rewrite Hb, Hn, Hd. Qed.

Lemma HealthCheck_decoded (svc : AnalyzerService) (ctx : Context)
    (analyzerName : string) (w w' : World) (request : Request)
    (resp : successResponse) (status : StatusResponse) :
  buildRequest (client svc) ctx "GET" "application/json" None
    (fmt_Sprintf (Url (options (client svc)) +:+ ANALYZER_HEALTHCHECK_URL)
                 [analyzerName]) = inr request →
  newRequest (client svc) ctx request w = (inr resp, w') →
  json_Unmarshal_status (Data resp) {| Status := false |} = (status, None) →
  HealthCheck svc ctx analyzerName w = ((Status status, None), w').
Proof. intros Hb Hn Hd. unfold HealthCheck. by rewrite Hb, Hn, Hd. Qed.

(** ** The listing *)

(** C1.  Once the body of the listing is decoded into a map, the result
    of [GetConfigs] follows the names of the map in strictly ascending
    byte-wise order: there is a slice of names, strictly ascending and
    holding exactly the keys of the map, such that the returned slice has
    as many elements as the map has entries and its element at each
    position is the value the map holds for the name at that position.
    No error is returned. *)
Theorem GetConfigs_sorted_by_name (svc : AnalyzerService) (ctx : Context)
    (w w' : World) (request : Request) (resp : successResponse)
    (m : gmap string AnalyzerConfig) :
  buildRequest (client svc) ctx "GET" "application/json" None
    (Url (options (client svc)) +:+ ANALYZER_CONFIG_URL) = inr request →
  newRequest (client svc) ctx request w = (inr resp, w') →
  json_Unmarshal_configs (Data resp) ∅ = (m, None) →
  ∃ (names : list string) (configs : list AnalyzerConfig),
    GetConfigs svc ctx w = ((Some configs, None), w') ∧
    strictlyAscending names ∧
    names ≡ₚ keys m ∧
    length configs = size m ∧
    Forall2 (λ name config, m !! name = Some config) names configs.
Proof.
  intros Hb Hn Hd.
  assert (sort_Strings (mapRange m) ≡ₚ keys m) as Hperm.
  { by rewrite sort_Strings_Permutation, mapRange_keys. }
  exists (sort_Strings (mapRange m)), (mapIndex m <$> sort_Strings (mapRange m)).
  split; [by apply GetConfigs_decoded with request resp|].
  split.
  { apply sort_Strings_strict. rewrite mapRange_keys.
    apply NoDup_fst_map_to_list. }
  split; [done|]. split.
  { by rewrite length_fmap, Hperm, keys_length. }
  apply Forall2_fmap_r, Forall_Forall2_diag, Forall_forall.
  intros k Hk. apply keys_lookup. by rewrite <-Hperm.
Qed.

(** C4.  When the body of the listing decodes to the empty map,
    [GetConfigs] returns an empty slice and no error. *)
Theorem GetConfigs_empty_map (svc : AnalyzerService) (ctx : Context)
    (w w' : World) (request : Request) (resp : successResponse) :
  buildRequest (client svc) ctx "GET" "application/json" None
    (Url (options (client svc)) +:+ ANALYZER_CONFIG_URL) = inr request →
  newRequest (client svc) ctx request w = (inr resp, w') →
  json_Unmarshal_configs (Data resp) ∅ = (∅, None) →
  GetConfigs svc ctx w = ((Some [], None), w').
Proof.
  intros Hb Hn Hd. rewrite (GetConfigs_decoded _ _ _ _ _ _ _ Hb Hn Hd).
  pose proof (mapRange_keys ∅) as Hperm.
  unfold keys in Hperm. rewrite map_to_list_empty in Hperm.
  apply Permutation_nil_r in Hperm. by rewrite Hperm.
Qed.

(** C10.  [GetConfigs] never returns a nil slice pointer together with a
    nil error: whenever the error is nil the pointer is not. *)
Theorem GetConfigs_result_or_error (svc : AnalyzerService) (ctx : Context)
    (w : World) :
  ((GetConfigs svc ctx w).1.2 = None →
   ∃ configs, (GetConfigs svc ctx w).1.1 = Some configs) ∧
  (GetConfigs svc ctx w).1 ≠ (None, None).
Proof.
  unfold GetConfigs.
  destruct (buildRequest _ _ _ _ _ _) as [err|request]; [by split|].
  destruct (newRequest _ _ _ _) as [[err|resp] w']; [by split|].
  destruct (json_Unmarshal_configs _ _) as [m [e|]]; [by split|].
  split; [eauto|done].
Qed.

(** C6.  The result of [GetConfigs] does not depend on the order in which
    [range] visits the decoded map: two runtimes that decode alike return
    the same result, element for element, whatever order each of them
    visits the keys in. *)
Theorem GetConfigs_order_independent (RT1 RT2 : GoRuntime)
    (svc : AnalyzerService) (ctx : Context) (w : World) :
  (∀ data m, json_Unmarshal_configs (GoRuntime := RT1) data m =
             json_Unmarshal_configs (GoRuntime := RT2) data m) →
  GetConfigs (RT := RT1) svc ctx w = GetConfigs (RT := RT2) svc ctx w.
Proof.
  intros Hjson. unfold GetConfigs.
  destruct (buildRequest _ _ _ _ _ _) as [err|request]; [done|].
  destruct (newRequest _ _ _ _) as [[err|resp] w']; [done|].
  rewrite Hjson.
  destruct (json_Unmarshal_configs _ _) as [m [e|]]; [done|].
  rewrite !(foldl_snoc_fmap id), !list_fmap_id, !foldl_snoc_fmap, !app_nil_l.
  rewrite (sort_Strings_proper (mapRange (GoRuntime := RT1) m)
                               (mapRange (GoRuntime := RT2) m)); [done|].
  by rewrite !mapRange_keys.
Qed.

(** ** The health check *)

(** C2.  When the body of the answer decodes to a status record,
    [HealthCheck] returns the boolean field of that record and no error:
    [true] for a record holding [true], [false] for one holding [false]. *)
Theorem HealthCheck_returns_status (svc : AnalyzerService) (ctx : Context)
    (analyzerName : string) (w w' : World) (request : Request)
    (resp : successResponse) (status : StatusResponse) :
  buildRequest (client svc) ctx "GET" "application/json" None
    (fmt_Sprintf (Url (options (client svc)) +:+ ANALYZER_HEALTHCHECK_URL)
                 [analyzerName]) = inr request →
  newRequest (client svc) ctx request w = (inr resp, w') →
  json_Unmarshal_status (Data resp) {| Status := false |} = (status, None) →
  HealthCheck svc ctx analyzerName w = ((Status status, None), w') ∧
  (status = {| Status := true |} →
   (HealthCheck svc ctx analyzerName w).1 = (true, None)) ∧
  (status = {| Status := false |} →
   (HealthCheck svc ctx analyzerName w).1 = (false, None)).
Proof.
  intros Hb Hn Hd.
  rewrite (HealthCheck_decoded _ _ _ _ _ _ _ _ Hb Hn Hd).
  repeat split; by intros ->.
Qed.

(** C9.  On each failure path of [HealthCheck] (the request cannot be
    built, the transport fails, the body cannot be decoded) the boolean
    returned is [false] and the error is the one of that step; the boolean
    is [true] only when every step succeeded and the decoded record holds
    [true]. *)
Theorem HealthCheck_false_on_failure (svc : AnalyzerService) (ctx : Context)
    (analyzerName : string) (w : World) :
  let requestUrl :=
    fmt_Sprintf (Url (options (client svc)) +:+ ANALYZER_HEALTHCHECK_URL)
                [analyzerName] in
  let built :=
    buildRequest (client svc) ctx "GET" "application/json" None requestUrl in
  (∀ err, built = inl err →
     HealthCheck svc ctx analyzerName w = ((false, Some err), w)) ∧
  (∀ request err w', built = inr request →
     newRequest (client svc) ctx request w = (inl err, w') →
     HealthCheck svc ctx analyzerName w = ((false, Some err), w')) ∧
  (∀ request resp w' status e, built = inr request →
     newRequest (client svc) ctx request w = (inr resp, w') →
     json_Unmarshal_status (Data resp) {| Status := false |} = (status, Some e) →
     HealthCheck svc ctx analyzerName w = ((false, Some (DecodeError e)), w')) ∧
  ((HealthCheck svc ctx analyzerName w).1.2 ≠ None →
   (HealthCheck svc ctx analyzerName w).1.1 = false) ∧
  ((HealthCheck svc ctx analyzerName w).1.1 = true →
   (HealthCheck svc ctx analyzerName w).1.2 = None ∧
   ∃ request resp w',
     built = inr request ∧
     newRequest (client svc) ctx request w = (inr resp, w') ∧
     json_Unmarshal_status (Data resp) {| Status := false |} =
       ({| Status := true |}, None)).
Proof.
  intros requestUrl built. subst requestUrl built.
  split; [intros; by apply HealthCheck_build_failed|].
  split; [intros; by eapply HealthCheck_transport_failed|].
  split; [intros; by eapply HealthCheck_decode_failed|].
  unfold HealthCheck.
  destruct (buildRequest _ _ _ _ _ _) as [err|request]; [by split|].
  destruct (newRequest _ _ _ _) as [[err|resp] w'] eqn:Hn; [by split|].
  destruct (json_Unmarshal_status _ _) as [[up] [e|]] eqn:Hd; [by split|].
  simpl. split; [done|]. intros ->. split; [done|].
  by exists request, resp, w'.
Qed.

(** ** Decode failures *)

(** C5.  When the transport reports success and decoding the body fails,
    [GetConfigs] and [HealthCheck] each return the decoder's error as a
    [DecodeError], with a nil slice pointer and with [false]; both
    functions return on every input. *)
Theorem decode_failure_is_DecodeError (svc : AnalyzerService) (ctx : Context)
    (analyzerName : string) (w : World) :
  (∀ request resp w' m e,
     buildRequest (client svc) ctx "GET" "application/json" None
       (Url (options (client svc)) +:+ ANALYZER_CONFIG_URL) = inr request →
     newRequest (client svc) ctx request w = (inr resp, w') →
     json_Unmarshal_configs (Data resp) ∅ = (m, Some e) →
     GetConfigs svc ctx w = ((None, Some (DecodeError e)), w')) ∧
  (∀ request resp w' status e,
     buildRequest (client svc) ctx "GET" "application/json" None
       (fmt_Sprintf (Url (options (client svc)) +:+ ANALYZER_HEALTHCHECK_URL)
                    [analyzerName]) = inr request →
     newRequest (client svc) ctx request w = (inr resp, w') →
     json_Unmarshal_status (Data resp) {| Status := false |} = (status, Some e) →
     HealthCheck svc ctx analyzerName w = ((false, Some (DecodeError e)), w')).
Proof.
  split; intros.
  - by eapply GetConfigs_decode_failed.
  - by eapply HealthCheck_decode_failed.
Qed.

(** ** Over the transport client of the specification *)

(** C3.  An error raised by the execute step reaches the caller of
    [GetConfigs] and of [HealthCheck] as it is, with a nil slice pointer
    and with [false], whatever the transport client.  Over the transport
    client of the specification, a response whose status is not 2xx thus
    makes both return the [HTTPStatusError] of that status code: neither
    returns a nil error. *)
Theorem non2xx_is_HTTPStatusError (net : Context → Request → NetOutcome)
    (validURL : string → bool) (errorMessage : string → string)
    (svc : AnalyzerService) (ctx : Context) (analyzerName : string)
    (w0 : World) (w : list Request) (statusCode : Z) (body : string) :
  (∀ request err w',
     buildRequest (client svc) ctx "GET" "application/json" None
       (Url (options (client svc)) +:+ ANALYZER_CONFIG_URL) = inr request →
     newRequest (client svc) ctx request w0 = (inl err, w') →
     GetConfigs svc ctx w0 = ((None, Some err), w')) ∧
  (∀ request err w',
     buildRequest (client svc) ctx "GET" "application/json" None
       (fmt_Sprintf (Url (options (client svc)) +:+ ANALYZER_HEALTHCHECK_URL)
                    [analyzerName]) = inr request →
     newRequest (client svc) ctx request w0 = (inl err, w') →
     HealthCheck svc ctx analyzerName w0 = ((false, Some err), w')) ∧
  (is2xx statusCode = false →
   (∀ request,
      spec_buildRequest validURL (client svc) ctx "GET" "application/json" None
        (Url (options (client svc)) +:+ ANALYZER_CONFIG_URL) = inr request →
      net ctx request = Responded statusCode body →
      GetConfigs (T := specTransport net validURL errorMessage) svc ctx w =
        ((None, Some (HTTPStatusError statusCode (errorMessage body))),
         w ++ [request])) ∧
   (∀ request,
      spec_buildRequest validURL (client svc) ctx "GET" "application/json" None
        (fmt_Sprintf (Url (options (client svc)) +:+ ANALYZER_HEALTHCHECK_URL)
                     [analyzerName]) = inr request →
      net ctx request = Responded statusCode body →
      HealthCheck (T := specTransport net validURL errorMessage)
        svc ctx analyzerName w =
        ((false, Some (HTTPStatusError statusCode (errorMessage body))),
         w ++ [request]))).
Proof.
  split; [intros; by eapply GetConfigs_transport_failed|].
  split; [intros; by eapply HealthCheck_transport_failed|].
  intros Hcode. split; intros request Hb Hnet.
  - unfold GetConfigs. simpl. rewrite Hb.
    unfold spec_newRequest. by rewrite Hnet, Hcode.
  - unfold HealthCheck. simpl. rewrite Hb.
    unfold spec_newRequest. by rewrite Hnet, Hcode.
Qed.

(** C8.  [GetConfigs] and [HealthCheck] ask the transport client for no
    request but a [GET] without body whose content type is
    [application/json]: how the construction primitive treats any other
    request has no bearing on them.  Over the transport client of the
    specification, the requests they issue are such [GET]s carrying the
    header [Content-Type: application/json]: one request when the request
    can be built and none otherwise. *)
Theorem requests_are_bodyless_json_gets (net : Context → Request → NetOutcome)
    (validURL : string → bool) (errorMessage : string → string)
    (svc : AnalyzerService) (ctx : Context) (analyzerName : string)
    (w0 : World) (w : list Request) :
  (∀ build,
     (∀ c ctx' url,
        build c ctx' "GET" "application/json" None url =
        buildRequest c ctx' "GET" "application/json" None url) →
     GetConfigs (T := withBuildRequest T build) svc ctx w0 =
       GetConfigs svc ctx w0 ∧
     HealthCheck (T := withBuildRequest T build) svc ctx analyzerName w0 =
       HealthCheck svc ctx analyzerName w0) ∧
  (∃ sent,
     (GetConfigs (T := specTransport net validURL errorMessage) svc ctx w).2 =
       w ++ sent ∧
     Forall bodylessJsonGET sent ∧
     length sent =
       if negb (cancelled ctx) &&
          validURL (Url (options (client svc)) +:+ ANALYZER_CONFIG_URL)
       then 1 else 0) ∧
  (∃ sent,
     (HealthCheck (T := specTransport net validURL errorMessage)
        svc ctx analyzerName w).2 = w ++ sent ∧
     Forall bodylessJsonGET sent ∧
     length sent =
       if negb (cancelled ctx) &&
          validURL (fmt_Sprintf
                      (Url (options (client svc)) +:+ ANALYZER_HEALTHCHECK_URL)
                      [analyzerName])
       then 1 else 0).
Proof.
  split; [|split].
  - intros build Hbuild. unfold GetConfigs, HealthCheck. simpl.
    by rewrite !Hbuild.
  - unfold GetConfigs. simpl. unfold spec_buildRequest, spec_newRequest.
    destruct (cancelled ctx); simpl.
    { exists []. by rewrite app_nil_r. }
    destruct (validURL _); simpl.
    2: { exists []. by rewrite app_nil_r. }
    eexists [_]. split; [|split; [|done]].
    + destruct (net _ _) as [code body| |]; [destruct (is2xx code)|..];
        try done.
      by destruct (json_Unmarshal_configs _ _) as [m [e|]].
    + by repeat constructor.
  - unfold HealthCheck. simpl. unfold spec_buildRequest, spec_newRequest.
    destruct (cancelled ctx); simpl.
    { exists []. by rewrite app_nil_r. }
    destruct (validURL _); simpl.
    2: { exists []. by rewrite app_nil_r. }
    eexists [_]. split; [|split; [|done]].
    + destruct (net _ _) as [code body| |]; [destruct (is2xx code)|..];
        try done.
      by destruct (json_Unmarshal_status _ _) as [st [e|]].
    + by repeat constructor.
Qed.

(** ** The URL of the health check *)

(** The template, formatted on its own, is the documented endpoint. *)
Lemma healthcheck_template_formatted (analyzerName : string) :
  doPrintf ANALYZER_HEALTHCHECK_URL [analyzerName] =
    Some ("/api/analyzer/" +:+ analyzerName +:+ "/healthcheck").
Proof.
  unfold ANALYZER_HEALTHCHECK_URL. cbn [doPrintf Ascii.eqb Bool.eqb orb fmap option_fmap option_map].
  reflexivity.
Qed.

(** Under a base URL without [%], [HealthCheck] calls the documented
    endpoint, the name being written as it is. *)
Lemma HealthCheck_url_plain (baseUrl analyzerName : string) :
  percentFree baseUrl = true →
  fmt_Sprintf (baseUrl +:+ ANALYZER_HEALTHCHECK_URL) [analyzerName] =
    healthCheckEndpoint baseUrl analyzerName.
Proof.
  intros Hfree. unfold fmt_Sprintf.
  by rewrite (doPrintf_percentFree _ _ _ Hfree), healthcheck_template_formatted.
Qed.

(** C7.  [HealthCheck] formats the base URL together with the route: under
    the base URL [http://h/%s] the name [Shodan] is written into the base
    URL and the place of the name in the route is left unfilled, so that
    the request does not go to the documented endpoint. *)
Theorem HealthCheck_formats_base_url (net : Context → Request → NetOutcome)
    (errorMessage : string → string) (w : list Request) :
  fmt_Sprintf
    (Url (options (client (exampleService "http://h/%s"))) +:+
     ANALYZER_HEALTHCHECK_URL) ["Shodan"] =
    "http://h/Shodan/api/analyzer/%!s(MISSING)/healthcheck" ∧
  (HealthCheck (T := specTransport net (λ _, true) errorMessage)
     (exampleService "http://h/%s") background "Shodan" w).2 =
    w ++ [{| Method := "GET";
             URL := "http://h/Shodan/api/analyzer/%!s(MISSING)/healthcheck";
             Header := [("Content-Type", "application/json")];
             Body := None |}] ∧
  healthCheckEndpoint "http://h/%s" "Shodan" =
    "http://h/%s/api/analyzer/Shodan/healthcheck" ∧
  "http://h/Shodan/api/analyzer/%!s(MISSING)/healthcheck" ≠
    healthCheckEndpoint "http://h/%s" "Shodan".
Proof.
  split; [reflexivity|]. split; [|by split].
  unfold HealthCheck. simpl. unfold spec_buildRequest, spec_newRequest. simpl.
  destruct (net _ _) as [code body| |]; [destruct (is2xx code)|..]; try done.
  by destruct (json_Unmarshal_status _ _) as [st [e|]].
Qed.

(** ** Further properties of the listing *)

(** X1.  [GetConfigs] returns an error exactly when one of its three steps
    fails, and the error is the one of that step: the request cannot be
    built, the transport fails, or the body cannot be decoded.  Nothing
    else (an empty map, a name of any shape) makes it fail. *)
Theorem GetConfigs_fails_iff (svc : AnalyzerService) (ctx : Context)
    (w : World) (err : error) :
  (GetConfigs svc ctx w).1.2 = Some err ↔
  buildRequest (client svc) ctx "GET" "application/json" None
    (Url (options (client svc)) +:+ ANALYZER_CONFIG_URL) = inl err ∨
  (∃ request w',
     buildRequest (client svc) ctx "GET" "application/json" None
       (Url (options (client svc)) +:+ ANALYZER_CONFIG_URL) = inr request ∧
     newRequest (client svc) ctx request w = (inl err, w')) ∨
  (∃ request resp w' m e,
     buildRequest (client svc) ctx "GET" "application/json" None
       (Url (options (client svc)) +:+ ANALYZER_CONFIG_URL) = inr request ∧
     newRequest (client svc) ctx request w = (inr resp, w') ∧
     json_Unmarshal_configs (Data resp) ∅ = (m, Some e) ∧
     err = DecodeError e).
Proof.
  unfold GetConfigs.
  destruct (buildRequest _ _ _ _ _ _) as [err0|request] eqn:Hb.
  { simpl. split.
    - intros [= ->]. by left.
    - intros [?|[(?&?&?&?)|(?&?&?&?&?&?&?)]]; by simplify_eq. }
  destruct (newRequest _ _ _ _) as [[err0|resp] w'] eqn:Hn.
  { simpl. split.
    - intros [= ->]. right; left. by exists request, w'.
    - intros [?|[(?&?&?&Hn')|(?&?&?&?&?&?&Hn'&?)]]; simplify_eq;
        rewrite Hn in Hn'; by simplify_eq. }
  destruct (json_Unmarshal_configs _ _) as [m [e|]] eqn:Hd.
  { simpl. split.
    - intros [= <-]. right; right. by exists request, resp, w', m, e.
    - intros [?|[(?&?&?&Hn')|(?&?&?&?&?&?&Hn'&Hd'&?)]]; simplify_eq;
        rewrite Hn in Hn'; simplify_eq.
      rewrite Hd in Hd'. by simplify_eq. }
  simpl. split; [done|].
  intros [?|[(?&?&?&Hn')|(?&?&?&?&?&?&Hn'&Hd'&?)]]; simplify_eq;
    rewrite Hn in Hn'; simplify_eq.
  rewrite Hd in Hd'. by simplify_eq.
Qed.

(** X2.  The slice [GetConfigs] returns holds the values of the decoded
    map, each entry once: no configuration is lost and none is repeated. *)
Theorem GetConfigs_returns_every_value (svc : AnalyzerService) (ctx : Context)
    (w w' : World) (request : Request) (resp : successResponse)
    (m : gmap string AnalyzerConfig) :
  buildRequest (client svc) ctx "GET" "application/json" None
    (Url (options (client svc)) +:+ ANALYZER_CONFIG_URL) = inr request →
  newRequest (client svc) ctx request w = (inr resp, w') →
  json_Unmarshal_configs (Data resp) ∅ = (m, None) →
  ∃ configs,
    GetConfigs svc ctx w = ((Some configs, None), w') ∧
    configs ≡ₚ (map_to_list m).*2.
Proof.
  intros Hb Hn Hd. eexists. split; [by eapply GetConfigs_decoded|].
  rewrite sort_Strings_Permutation, mapRange_keys. unfold keys.
  rewrite <-list_fmap_compose.
  assert ((mapIndex m ∘ fst <$> map_to_list m) = (map_to_list m).*2) as ->;
    [|done].
  apply Forall_fmap_ext, Forall_forall. intros [k v] Hkv.
  apply elem_of_map_to_list in Hkv. unfold mapIndex. simpl. by rewrite Hkv.
Qed.

Lemma upper_less_lower (a b : string) :
  startsUpper a = true → startsLower b = true → less a b = true.
Proof.
  destruct a as [|c1 a], b as [|c2 b]; simpl; try done.
  unfold isUpper, isLower. intros H1 H2.
  apply andb_prop in H1 as [_ H1]. apply andb_prop in H2 as [H2 _].
  apply N.leb_le in H1, H2. apply less_compare. simpl.
  assert (Ascii.compare c1 c2 = Lt) as ->; [|done].
  unfold Ascii.compare. apply N.compare_lt_iff.
  eapply N.le_lt_trans; [exact H1|]. eapply N.lt_le_trans; [|exact H2]. done.
Qed.

Lemma strictlyAscending_lookup (l : list string) (i j : nat) (x y : string) :
  strictlyAscending l → l !! i = Some x → l !! j = Some y → i < j →
  less x y = true.
Proof.
  unfold strictlyAscending. intros Hs. revert i j.
  induction Hs as [|z l Hl IH Hz]; intros i j Hi Hj Hij; [done|].
  destruct j as [|j]; [lia|]. simpl in Hj.
  destruct i as [|i]; simpl in Hi.
  - injection Hi as ->. rewrite Forall_forall in Hz.
    apply Hz. by eapply list_elem_of_lookup_2.
  - apply (IH i j); [done..|lia].
Qed.

(** X3.  The order of the listing is that of the bytes, not of the
    alphabet: every analyzer whose name starts with an upper-case letter
    comes before every analyzer whose name starts with a lower-case
    letter. *)
Theorem GetConfigs_upper_case_first (svc : AnalyzerService) (ctx : Context)
    (w w' : World) (request : Request) (resp : successResponse)
    (m : gmap string AnalyzerConfig) :
  buildRequest (client svc) ctx "GET" "application/json" None
    (Url (options (client svc)) +:+ ANALYZER_CONFIG_URL) = inr request →
  newRequest (client svc) ctx request w = (inr resp, w') →
  json_Unmarshal_configs (Data resp) ∅ = (m, None) →
  ∃ names,
    GetConfigs svc ctx w = ((Some (mapIndex m <$> names), None), w') ∧
    names ≡ₚ keys m ∧
    ∀ i j upper lower,
      names !! i = Some upper → names !! j = Some lower →
      startsUpper upper = true → startsLower lower = true → i < j.
Proof.
  intros Hb Hn Hd. exists (sort_Strings (mapRange m)).
  split; [by eapply GetConfigs_decoded|].
  split; [by rewrite sort_Strings_Permutation, mapRange_keys|].
  assert (strictlyAscending (sort_Strings (mapRange m))) as Hs.
  { apply sort_Strings_strict. rewrite mapRange_keys.
    apply NoDup_fst_map_to_list. }
  intros i j upper lower Hi Hj Hu Hl.
  pose proof (upper_less_lower _ _ Hu Hl) as Hlt.
  destruct (Nat.lt_trichotomy i j) as [?|[->|Hji]]; [done|..].
  - rewrite Hi in Hj. injection Hj as ->. by rewrite less_irrefl in Hlt.
  - pose proof (strictlyAscending_lookup _ _ _ _ _ Hs Hj Hi Hji) as Hgt.
    apply less_asym in Hgt. congruence.
Qed.

(** ** Further properties of the health check *)

(** X4.  [HealthCheck] returns [false] without an error only for an answer
    that was received and decoded and whose status is [false]: a failure
    of any step is never reported as an analyzer that is down. *)
Theorem HealthCheck_down_iff (svc : AnalyzerService) (ctx : Context)
    (analyzerName : string) (w : World) :
  (HealthCheck svc ctx analyzerName w).1 = (false, None) ↔
  ∃ request resp w',
    buildRequest (client svc) ctx "GET" "application/json" None
      (fmt_Sprintf (Url (options (client svc)) +:+ ANALYZER_HEALTHCHECK_URL)
                   [analyzerName]) = inr request ∧
    newRequest (client svc) ctx request w = (inr resp, w') ∧
    json_Unmarshal_status (Data resp) {| Status := false |} =
      ({| Status := false |}, None).
Proof.
  unfold HealthCheck.
  destruct (buildRequest _ _ _ _ _ _) as [err0|request] eqn:Hb.
  { simpl. split; [done|]. intros (?&?&?&?&?); by simplify_eq. }
  destruct (newRequest _ _ _ _) as [[err0|resp] w'] eqn:Hn.
  { simpl. split; [done|]. intros (?&?&?&?&Hn'&?); simplify_eq.
    rewrite Hn in Hn'. by simplify_eq. }
  destruct (json_Unmarshal_status _ _) as [[up] [e|]] eqn:Hd.
  { simpl. split; [done|]. intros (?&?&?&?&Hn'&Hd'); simplify_eq.
    rewrite Hn in Hn'. simplify_eq. rewrite Hd in Hd'. by simplify_eq. }
  simpl. split.
  - intros [= ->]. by exists request, resp, w'.
  - intros (?&?&?&?&Hn'&Hd'); simplify_eq.
    rewrite Hn in Hn'. simplify_eq. rewrite Hd in Hd'. by simplify_eq.
Qed.

(** X5.  Each call talks to the server at most once: when the request
    cannot be built the HTTP layer is left untouched, and otherwise its
    state is the one a single execution of the request leaves, whether
    that execution or the decoding of its payload fails or not. *)
Theorem single_exchange (svc : AnalyzerService) (ctx : Context)
    (analyzerName : string) (w : World) :
  (GetConfigs svc ctx w).2 =
    match buildRequest (client svc) ctx "GET" "application/json" None
            (Url (options (client svc)) +:+ ANALYZER_CONFIG_URL) with
    | inl _ => w
    | inr request => (newRequest (client svc) ctx request w).2
    end ∧
  (HealthCheck svc ctx analyzerName w).2 =
    match buildRequest (client svc) ctx "GET" "application/json" None
            (fmt_Sprintf
               (Url (options (client svc)) +:+ ANALYZER_HEALTHCHECK_URL)
               [analyzerName]) with
    | inl _ => w
    | inr request => (newRequest (client svc) ctx request w).2
    end.
Proof.
  unfold GetConfigs, HealthCheck. split.
  - destruct (buildRequest _ _ _ _ _ _) as [err|request]; [done|].
    destruct (newRequest _ _ _ _) as [[err|resp] w']; [done|].
    by destruct (json_Unmarshal_configs _ _) as [m [e|]].
  - destruct (buildRequest _ _ _ _ _ _) as [err|request]; [done|].
    destruct (newRequest _ _ _ _) as [[err|resp] w']; [done|].
    by destruct (json_Unmarshal_status _ _) as [st [e|]].
Qed.

(** ** Further properties of the URL of the health check *)

Lemma string_append_cons (x : ascii) (a b : string) :
  String x a +:+ b = String x (a +:+ b).
Proof. reflexivity. Qed.

Lemma string_append_assoc (a b c : string) :
  (a +:+ b) +:+ c = a +:+ (b +:+ c).
Proof.
  induction a as [|x a IH]; [done|].
  by rewrite !string_append_cons, IH.
Qed.

Lemma string_append_length (a b : string) :
  String.length (a +:+ b) = String.length a + String.length b.
Proof.
  induction a as [|x a IH]; [done|].
  rewrite string_append_cons. simpl. by rewrite IH.
Qed.

Lemma string_append_cancel_l (p a b : string) : p +:+ a = p +:+ b → a = b.
Proof.
  induction p as [|x p IH]; [done|].
  rewrite !string_append_cons. intros [= H]. by apply IH.
Qed.

Lemma string_append_cancel_r (a b s : string) : a +:+ s = b +:+ s → a = b.
Proof.
  revert b. induction a as [|x a IH]; intros [|y b] H.
  - done.
  - apply (f_equal String.length) in H.
    rewrite string_append_cons in H. simpl in H.
    rewrite !string_append_length in H. simpl in H. lia.
  - apply (f_equal String.length) in H.
    rewrite string_append_cons in H. simpl in H.
    rewrite !string_append_length in H. simpl in H. lia.
  - rewrite !string_append_cons in H. injection H as -> H.
    f_equal. by apply IH.
Qed.

(** X6.  Under a base URL without [%], [HealthCheck] asks for the
    documented endpoint of the analyzer, whatever the name: the name is
    written into the path as it is, without escaping or validation, and
    the construction primitive is consulted for that URL only. *)
Theorem HealthCheck_requests_endpoint (svc : AnalyzerService) (ctx : Context)
    (analyzerName : string) (w : World) :
  percentFree (Url (options (client svc))) = true →
  fmt_Sprintf (Url (options (client svc)) +:+ ANALYZER_HEALTHCHECK_URL)
              [analyzerName] =
    Url (options (client svc)) +:+ "/api/analyzer/" +:+ analyzerName +:+
    "/healthcheck" ∧
  ∀ build,
    (∀ c ctx',
       build c ctx' "GET" "application/json" None
         (healthCheckEndpoint (Url (options (client svc))) analyzerName) =
       buildRequest c ctx' "GET" "application/json" None
         (healthCheckEndpoint (Url (options (client svc))) analyzerName)) →
    HealthCheck (T := withBuildRequest T build) svc ctx analyzerName w =
      HealthCheck svc ctx analyzerName w.
Proof.
  intros Hfree. split; [by apply HealthCheck_url_plain|].
  intros build Hbuild. unfold HealthCheck. simpl.
  by rewrite (HealthCheck_url_plain _ _ Hfree), Hbuild.
Qed.

(** X7.  Under a base URL without [%], analyzers of different names are
    checked at different URLs. *)
Theorem HealthCheck_distinct_urls (baseUrl name1 name2 : string) :
  percentFree baseUrl = true → name1 ≠ name2 →
  fmt_Sprintf (baseUrl +:+ ANALYZER_HEALTHCHECK_URL) [name1] ≠
  fmt_Sprintf (baseUrl +:+ ANALYZER_HEALTHCHECK_URL) [name2].
Proof.
  intros Hfree Hne. rewrite !(HealthCheck_url_plain _ _ Hfree).
  unfold healthCheckEndpoint. intros Heq. apply Hne.
  apply string_append_cancel_l, string_append_cancel_l in Heq.
  by apply string_append_cancel_r in Heq.
Qed.

(** X8.  A [%s] or [%v] in the base URL takes the name: when the base URL
    holds one such directive and no other [%], [HealthCheck] writes the
    name in its place and leaves [%!s(MISSING)] where the route expects
    the name. *)
Theorem HealthCheck_directive_in_base_url (before after analyzerName : string)
    (verb : ascii) :
  percentFree before = true → percentFree after = true →
  verb = "s"%char ∨ verb = "v"%char →
  fmt_Sprintf
    ((before +:+ String "%" (String verb after)) +:+ ANALYZER_HEALTHCHECK_URL)
    [analyzerName] =
    before +:+ analyzerName +:+ after +:+
    "/api/analyzer/%!s(MISSING)/healthcheck".
Proof.
  intros Hbefore Hafter Hverb. unfold fmt_Sprintf.
  rewrite string_append_assoc, (doPrintf_percentFree _ _ _ Hbefore).
  change (String "%" (String verb after) +:+ ANALYZER_HEALTHCHECK_URL)
    with (String "%" (String verb (after +:+ ANALYZER_HEALTHCHECK_URL))).
  assert (doPrintf (String "%" (String verb (after +:+ ANALYZER_HEALTHCHECK_URL)))
            [analyzerName] =
          String.append analyzerName <$>
            doPrintf (after +:+ ANALYZER_HEALTHCHECK_URL) []) as ->.
  { by destruct Hverb as [-> | ->]. }
  by rewrite (doPrintf_percentFree _ _ _ Hafter).
Qed.

(** ** Bodies the decoder accepts although they match no schema *)

(** Under a runtime that decodes [null] and [{}] as Go does, a successful
    answer whose body is [{}] makes [HealthCheck] return [false] and no
    error, and one whose body is [null] makes [GetConfigs] return an empty
    slice and no error. *)
Lemma schema_mismatch_accepted (svc : AnalyzerService) (ctx : Context)
    (analyzerName : string) (w w' : World) (request : Request) :
  decodesEmptyAsGo RT →
  (buildRequest (client svc) ctx "GET" "application/json" None
     (fmt_Sprintf (Url (options (client svc)) +:+ ANALYZER_HEALTHCHECK_URL)
                  [analyzerName]) = inr request →
   newRequest (client svc) ctx request w = (inr {| Data := "{}" |}, w') →
   HealthCheck svc ctx analyzerName w = ((false, None), w')) ∧
  (buildRequest (client svc) ctx "GET" "application/json" None
     (Url (options (client svc)) +:+ ANALYZER_CONFIG_URL) = inr request →
   newRequest (client svc) ctx request w = (inr {| Data := "null" |}, w') →
   GetConfigs svc ctx w = ((Some [], None), w')).
Proof.
  intros Hgo. split; intros Hb Hn.
  - apply (HealthCheck_decoded _ _ _ _ _ _ _ {| Status := false |} Hb Hn).
    by apply (Hgo "{}").
  - assert (json_Unmarshal_configs (Data {| Data := "null" |}) ∅ = (∅, None))
      as Hd by by apply (Hgo "null").
    rewrite (GetConfigs_decoded _ _ _ _ _ _ _ Hb Hn Hd).
    pose proof (mapRange_keys ∅) as Hperm.
    unfold keys in Hperm. rewrite map_to_list_empty in Hperm.
    apply Permutation_nil_r in Hperm. by rewrite Hperm.
Qed.

End Gointelx.

(** ** The theorems at work

    The service over the canned collaborators, with [unit] for the shared
    configuration fields. *)

(** The listing of the example catalog, visited in an unsorted order,
    comes out sorted by name. *)
Lemma GetConfigs_sorted_by_name_witness :
  ∃ (names : list string) (configs : list (AnalyzerConfig unit)),
    GetConfigs unit tt (RT := cannedRuntime unit tt)
      (T := cannedTransport 200 catalogBody)
      (exampleService "http://h") background [] =
      ((Some configs, None),
       [{| Method := "GET"; URL := "http://h/api/get_analyzer_configs";
           Header := [("Content-Type", "application/json")];
           Body := None |}]) ∧
    strictlyAscending names ∧
    names ≡ₚ keys unit (exampleCatalog unit tt) ∧
    length configs = size (exampleCatalog unit tt) ∧
    Forall2 (λ name config, exampleCatalog unit tt !! name = Some config)
            names configs.
Proof.
  eapply (GetConfigs_sorted_by_name unit tt (RT := cannedRuntime unit tt)
            (T := cannedTransport 200 catalogBody)
            (exampleService "http://h") background []).
  - reflexivity.
  - reflexivity.
  - vm_compute. reflexivity.
Defined.

Lemma GetConfigs_empty_map_witness :
  GetConfigs unit tt (RT := cannedRuntime unit tt)
    (T := cannedTransport 200 "{}")
    (exampleService "http://h") background [] =
    ((Some [], None),
     [{| Method := "GET"; URL := "http://h/api/get_analyzer_configs";
         Header := [("Content-Type", "application/json")];
         Body := None |}]).
Proof.
  eapply (GetConfigs_empty_map unit tt (RT := cannedRuntime unit tt)
            (T := cannedTransport 200 "{}")
            (exampleService "http://h") background []).
  - reflexivity.
  - reflexivity.
  - vm_compute. reflexivity.
Defined.

Lemma GetConfigs_result_or_error_witness :
  ∃ configs,
    (GetConfigs unit tt (RT := cannedRuntime unit tt)
       (T := cannedTransport 200 catalogBody)
       (exampleService "http://h") background []).1.1 = Some configs.
Proof.
  apply (proj1 (GetConfigs_result_or_error unit tt
                  (RT := cannedRuntime unit tt)
                  (T := cannedTransport 200 catalogBody)
                  (exampleService "http://h") background [])).
  vm_compute. reflexivity.
Defined.

(** The two canned runtimes visit the catalog in opposite orders and
    return the same listing. *)
Lemma GetConfigs_order_independent_witness :
  GetConfigs unit tt (RT := cannedRuntime unit tt)
    (T := cannedTransport 200 catalogBody)
    (exampleService "http://h") background [] =
  GetConfigs unit tt (RT := cannedRuntimeReversed unit tt)
    (T := cannedTransport 200 catalogBody)
    (exampleService "http://h") background [].
Proof.
  apply (GetConfigs_order_independent unit tt
           (T := cannedTransport 200 catalogBody)
           (cannedRuntime unit tt) (cannedRuntimeReversed unit tt)).
  intros data m. reflexivity.
Defined.

Lemma HealthCheck_returns_status_witness :
  HealthCheck unit (RT := cannedRuntime unit tt)
    (T := cannedTransport 200 (statusBody true))
    (exampleService "http://h") background "Shodan" [] =
    ((true, None),
     [{| Method := "GET"; URL := "http://h/api/analyzer/Shodan/healthcheck";
         Header := [("Content-Type", "application/json")];
         Body := None |}]).
Proof.
  pose proof (λ w' request resp Hb Hn Hd,
                proj1 (HealthCheck_returns_status unit
                         (RT := cannedRuntime unit tt)
                         (T := cannedTransport 200 (statusBody true))
                         (exampleService "http://h") background "Shodan" []
                         w' request resp {| Status := true |} Hb Hn Hd))
    as Hstatus.
  eapply Hstatus; [reflexivity | reflexivity | vm_compute; reflexivity].
Defined.

(** A health check answered with [503] yields [false] and the error. *)
Lemma HealthCheck_false_on_failure_witness :
  HealthCheck unit (RT := cannedRuntime unit tt)
    (T := cannedTransport 503 "unavailable")
    (exampleService "http://h") background "Shodan" [] =
    ((false, Some (HTTPStatusError 503 "unavailable")),
     [{| Method := "GET"; URL := "http://h/api/analyzer/Shodan/healthcheck";
         Header := [("Content-Type", "application/json")];
         Body := None |}]).
Proof.
  destruct (HealthCheck_false_on_failure unit (RT := cannedRuntime unit tt)
              (T := cannedTransport 503 "unavailable")
              (exampleService "http://h") background "Shodan" [])
    as (_ & Htransport & _).
  eapply Htransport; reflexivity.
Defined.

Lemma decode_failure_is_DecodeError_witness :
  GetConfigs unit tt (RT := cannedRuntime unit tt)
    (T := cannedTransport 200 "<html>")
    (exampleService "http://h") background [] =
    ((None, Some (DecodeError (SyntaxError "invalid character"))),
     [{| Method := "GET"; URL := "http://h/api/get_analyzer_configs";
         Header := [("Content-Type", "application/json")];
         Body := None |}]) ∧
  HealthCheck unit (RT := cannedRuntime unit tt)
    (T := cannedTransport 200 "<html>")
    (exampleService "http://h") background "Shodan" [] =
    ((false, Some (DecodeError (SyntaxError "invalid character"))),
     [{| Method := "GET"; URL := "http://h/api/analyzer/Shodan/healthcheck";
         Header := [("Content-Type", "application/json")];
         Body := None |}]).
Proof.
  destruct (decode_failure_is_DecodeError unit tt (RT := cannedRuntime unit tt)
              (T := cannedTransport 200 "<html>")
              (exampleService "http://h") background "Shodan" [])
    as [Hlist Hhealth].
  split.
  - eapply Hlist; [reflexivity | reflexivity | vm_compute; reflexivity].
  - eapply Hhealth; [reflexivity | reflexivity | vm_compute; reflexivity].
Defined.

Lemma non2xx_is_HTTPStatusError_witness :
  GetConfigs unit tt (RT := cannedRuntime unit tt)
    (T := cannedTransport 503 "unavailable")
    (exampleService "http://h") background [] =
    ((None, Some (HTTPStatusError 503 "unavailable")),
     [{| Method := "GET"; URL := "http://h/api/get_analyzer_configs";
         Header := [("Content-Type", "application/json")];
         Body := None |}]) ∧
  HealthCheck unit (RT := cannedRuntime unit tt)
    (T := cannedTransport 503 "unavailable")
    (exampleService "http://h") background "Shodan" [] =
    ((false, Some (HTTPStatusError 503 "unavailable")),
     [{| Method := "GET"; URL := "http://h/api/analyzer/Shodan/healthcheck";
         Header := [("Content-Type", "application/json")];
         Body := None |}]).
Proof.
  destruct (non2xx_is_HTTPStatusError unit tt (RT := cannedRuntime unit tt)
              (T := cannedTransport 503 "unavailable")
              (cannedNet 503 "unavailable") (λ _, true) (λ body, body)
              (exampleService "http://h") background "Shodan" [] []
              503%Z "unavailable")
    as (_ & _ & Hspec).
  destruct (Hspec eq_refl) as [Hlist Hhealth].
  split.
  - apply Hlist; reflexivity.
  - apply Hhealth; reflexivity.
Defined.

(** A construction primitive that refuses every request other than a
    [GET] without body of content type [application/json] serves the
    service as well as the one of the specification. *)
Lemma requests_are_bodyless_json_gets_witness :
  GetConfigs unit tt (RT := cannedRuntime unit tt)
    (T := withBuildRequest (cannedTransport 200 catalogBody) strictBuildRequest)
    (exampleService "http://h") background [] =
  GetConfigs unit tt (RT := cannedRuntime unit tt)
    (T := cannedTransport 200 catalogBody)
    (exampleService "http://h") background [] ∧
  HealthCheck unit (RT := cannedRuntime unit tt)
    (T := withBuildRequest (cannedTransport 200 catalogBody) strictBuildRequest)
    (exampleService "http://h") background "Shodan" [] =
  HealthCheck unit (RT := cannedRuntime unit tt)
    (T := cannedTransport 200 catalogBody)
    (exampleService "http://h") background "Shodan" [].
Proof.
  apply (proj1 (requests_are_bodyless_json_gets unit tt
                  (RT := cannedRuntime unit tt)
                  (T := cannedTransport 200 catalogBody)
                  (cannedNet 200 catalogBody) (λ _, true) (λ body, body)
                  (exampleService "http://h") background "Shodan" [] [])).
  intros c ctx' url. reflexivity.
Defined.

(** The listing of the example catalog, whichever way the map is visited:
    Classic_DNS, Shodan, VirusTotal, Yara. *)
Example GetConfigs_catalog :
  (GetConfigs unit tt (RT := cannedRuntimeReversed unit tt)
     (T := cannedTransport 200 catalogBody)
     (exampleService "http://h") background []).1 =
    (Some [exampleConfig unit tt "dns"; exampleConfig unit tt "observable";
           exampleConfig unit tt "file"; exampleConfig unit tt "rules"], None) ∧
  mapRange unit (GoRuntime := cannedRuntimeReversed unit tt)
    (exampleCatalog unit tt) = ["VirusTotal"; "Yara"; "Classic_DNS"; "Shodan"].
Proof. split; vm_compute; reflexivity. Qed.

(** Under a base URL without [%] the health check of Shodan goes to the
    documented endpoint and returns the status the server reports. *)
Example HealthCheck_Shodan :
  HealthCheck unit (RT := cannedRuntime unit tt)
    (T := cannedTransport 200 (statusBody false))
    (exampleService "http://h") background "Shodan" [] =
    ((false, None),
     [{| Method := "GET"; URL := healthCheckEndpoint "http://h" "Shodan";
         Header := [("Content-Type", "application/json")];
         Body := None |}]).
Proof. vm_compute. reflexivity. Qed.

(** ** The further properties at work *)

(** A call under a cancelled context fails in the construction of the
    request. *)
Lemma GetConfigs_fails_iff_witness :
  (GetConfigs unit tt (RT := cannedRuntime unit tt)
     (T := cannedTransport 200 catalogBody)
     (exampleService "http://h") cancelledContext []).1.2 =
    Some ContextCancelled.
Proof.
  apply (proj2 (GetConfigs_fails_iff unit tt (RT := cannedRuntime unit tt)
                  (T := cannedTransport 200 catalogBody)
                  (exampleService "http://h") cancelledContext []
                  ContextCancelled)).
  left. reflexivity.
Defined.

Lemma GetConfigs_returns_every_value_witness :
  ∃ configs,
    GetConfigs unit tt (RT := cannedRuntimeReversed unit tt)
      (T := cannedTransport 200 catalogBody)
      (exampleService "http://h") background [] =
      ((Some configs, None),
       [{| Method := "GET"; URL := "http://h/api/get_analyzer_configs";
           Header := [("Content-Type", "application/json")];
           Body := None |}]) ∧
    configs ≡ₚ (map_to_list (exampleCatalog unit tt)).*2.
Proof.
  eapply (GetConfigs_returns_every_value unit tt
            (RT := cannedRuntimeReversed unit tt)
            (T := cannedTransport 200 catalogBody)
            (exampleService "http://h") background []).
  - reflexivity.
  - reflexivity.
  - vm_compute. reflexivity.
Defined.

Lemma GetConfigs_upper_case_first_witness :
  ∃ names,
    GetConfigs unit tt (RT := mixedRuntime unit tt)
      (T := cannedTransport 200 mixedBody)
      (exampleService "http://h") background [] =
      ((Some (mapIndex unit tt (mixedCatalog unit tt) <$> names), None),
       [{| Method := "GET"; URL := "http://h/api/get_analyzer_configs";
           Header := [("Content-Type", "application/json")];
           Body := None |}]) ∧
    names ≡ₚ keys unit (mixedCatalog unit tt) ∧
    ∀ i j upper lower,
      names !! i = Some upper → names !! j = Some lower →
      startsUpper upper = true → startsLower lower = true → i < j.
Proof.
  eapply (GetConfigs_upper_case_first unit tt (RT := mixedRuntime unit tt)
            (T := cannedTransport 200 mixedBody)
            (exampleService "http://h") background []).
  - reflexivity.
  - reflexivity.
  - vm_compute. reflexivity.
Defined.

(** Zeek is listed before abuseIPDB and crowdsec. *)
Example GetConfigs_mixed_catalog :
  (GetConfigs unit tt (RT := mixedRuntime unit tt)
     (T := cannedTransport 200 mixedBody)
     (exampleService "http://h") background []).1 =
    (Some [exampleConfig unit tt "file"; exampleConfig unit tt "observable";
           exampleConfig unit tt "ip"], None).
Proof. vm_compute. reflexivity. Qed.

Lemma HealthCheck_down_iff_witness :
  (HealthCheck unit (RT := cannedRuntime unit tt)
     (T := cannedTransport 200 (statusBody false))
     (exampleService "http://h") background "Shodan" []).1 = (false, None).
Proof.
  apply (proj2 (HealthCheck_down_iff unit (RT := cannedRuntime unit tt)
                  (T := cannedTransport 200 (statusBody false))
                  (exampleService "http://h") background "Shodan" [])).
  eexists _, _, _. split; [reflexivity|]. split; [reflexivity|].
  vm_compute. reflexivity.
Defined.

(** A name that is no path segment is written into the URL as it is. *)
Lemma HealthCheck_requests_endpoint_witness :
  fmt_Sprintf unit (RT := cannedRuntime unit tt)
    (Url (options (client (exampleService "http://h"))) +:+
     ANALYZER_HEALTHCHECK_URL) ["../jobs?x=%s#"] =
    Url (options (client (exampleService "http://h"))) +:+
    "/api/analyzer/" +:+ "../jobs?x=%s#" +:+ "/healthcheck".
Proof.
  apply (proj1 (HealthCheck_requests_endpoint unit
                  (RT := cannedRuntime unit tt)
                  (T := cannedTransport 200 (statusBody true))
                  (exampleService "http://h") background "../jobs?x=%s#" []
                  eq_refl)).
Defined.

Lemma HealthCheck_distinct_urls_witness :
  fmt_Sprintf unit (RT := cannedRuntime unit tt)
    ("http://h" +:+ ANALYZER_HEALTHCHECK_URL) ["Shodan"] ≠
  fmt_Sprintf unit (RT := cannedRuntime unit tt)
    ("http://h" +:+ ANALYZER_HEALTHCHECK_URL) ["Yara"].
Proof.
  apply (HealthCheck_distinct_urls unit (RT := cannedRuntime unit tt)
           "http://h" "Shodan" "Yara").
  - reflexivity.
  - discriminate.
Defined.

Lemma HealthCheck_directive_in_base_url_witness :
  fmt_Sprintf unit (RT := cannedRuntime unit tt)
    (("http://h/" +:+ String "%" (String "v" "/intelx")) +:+
     ANALYZER_HEALTHCHECK_URL) ["Shodan"] =
    "http://h/" +:+ "Shodan" +:+ "/intelx" +:+
    "/api/analyzer/%!s(MISSING)/healthcheck".
Proof.
  apply (HealthCheck_directive_in_base_url unit (RT := cannedRuntime unit tt)
           "http://h/" "/intelx" "Shodan" "v").
  - reflexivity.
  - reflexivity.
  - right. reflexivity.
Defined.

(** ** Answers that match no schema and raise no error *)

Lemma lenientRuntime_decodesEmptyAsGo :
  decodesEmptyAsGo unit (lenientRuntime unit tt).
Proof.
  intros data. split.
  - intros s r Hr. simpl. by rewrite Hr.
  - intros m r Hr. simpl. by rewrite Hr.
Qed.

(** C5, counterexample.  The body [{}] is a JSON object without
    any field, so it does not match the schema of the health-check answer,
    and the body [null] is no JSON object, so it does not match the schema
    of the listing.  [json.Unmarshal] reports no error on either: on a
    success status with body [{}], [HealthCheck] returns [false] and a nil
    error, and with body [null], [GetConfigs] returns an empty slice and a
    nil error; neither returns a [DecodeError]. *)
Lemma schema_mismatch_without_DecodeError :
  (valueOfBody "{}" = Some (JObject []) ∧
   statusSchema (JObject []) = false ∧
   HealthCheck unit (RT := lenientRuntime unit tt)
     (T := cannedTransport 200 "{}")
     (exampleService "http://h") background "Shodan" [] =
     ((false, None),
      [{| Method := "GET"; URL := "http://h/api/analyzer/Shodan/healthcheck";
          Header := [("Content-Type", "application/json")];
          Body := None |}])) ∧
  (valueOfBody "null" = Some JNull ∧
   listingSchema JNull = false ∧
   GetConfigs unit tt (RT := lenientRuntime unit tt)
     (T := cannedTransport 200 "null")
     (exampleService "http://h") background [] =
     ((Some [], None),
      [{| Method := "GET"; URL := "http://h/api/get_analyzer_configs";
          Header := [("Content-Type", "application/json")];
          Body := None |}])).
Proof.
  destruct (schema_mismatch_accepted unit tt (RT := lenientRuntime unit tt)
              (T := cannedTransport 200 "{}")
              (exampleService "http://h") background "Shodan" []
              [{| Method := "GET";
                  URL := "http://h/api/analyzer/Shodan/healthcheck";
                  Header := [("Content-Type", "application/json")];
                  Body := None |}]
              {| Method := "GET";
                 URL := "http://h/api/analyzer/Shodan/healthcheck";
                 Header := [("Content-Type", "application/json")];
                 Body := None |}
              lenientRuntime_decodesEmptyAsGo) as [Hhealth _].
  destruct (schema_mismatch_accepted unit tt (RT := lenientRuntime unit tt)
              (T := cannedTransport 200 "null")
              (exampleService "http://h") background "Shodan" []
              [{| Method := "GET"; URL := "http://h/api/get_analyzer_configs";
                  Header := [("Content-Type", "application/json")];
                  Body := None |}]
              {| Method := "GET"; URL := "http://h/api/get_analyzer_configs";
                 Header := [("Content-Type", "application/json")];
                 Body := None |}
              lenientRuntime_decodesEmptyAsGo) as [_ Hlist].
  split; (split; [reflexivity|]; split; [reflexivity|]).
  - apply Hhealth; reflexivity.
  - apply Hlist; reflexivity.
Qed.
